(** * neo-go ledger core: data-access layer, native NEP-5 tokens,
      native-contract dispatch, multisig interop and validator selection.

    A shallow embedding of the Go sources of package [core] (the DAO, the
    NEP-5 native template with its GAS and NEO instances, the native
    contract dispatcher, the ECDSA multisig interop) together with the
    properties the specification states about them. *)

From Stdlib Require Import ZArith List String Ascii Lia Bool.
From stdpp Require Import base option list gmap strings sorting.

Open Scope Z_scope.

(** ** Machine integers and bytes *)

(** Go's [int64] is a [Z] kept in the signed 64-bit range; every
    arithmetic operation wraps around. *)
Definition MinInt64 : Z := - 2 ^ 63.
Definition MaxInt64 : Z := 2 ^ 63 - 1.

Definition isInt64 (z : Z) : Prop := MinInt64 <= z <= MaxInt64.

Definition wrap64 (z : Z) : Z := (z + 2 ^ 63) mod 2 ^ 64 - 2 ^ 63.

Definition add64 (a b : Z) : Z := wrap64 (a + b).
Definition neg64 (a : Z) : Z := wrap64 (- a).

(** A byte is a [Z] in [0, 256); a byte slice is a list of them. *)
Abbreviation bytes := (list Z).

Definition isByte (b : Z) : Prop := 0 <= b < 256.

Definition byte_of_ascii (a : ascii) : Z := Z.of_N (N_of_ascii a).
Definition ascii_of_byte (b : Z) : ascii := ascii_of_N (Z.to_N (b mod 256)).

(** [[]byte(s)] and [string(b)]. *)
Fixpoint bytes_of_string (s : string) : bytes :=
  match s with
  | EmptyString => []
  | String a s' => byte_of_ascii a :: bytes_of_string s'
  end.

Fixpoint string_of_bytes (b : bytes) : string :=
  match b with
  | [] => EmptyString
  | x :: b' => String (ascii_of_byte x) (string_of_bytes b')
  end.

(** [binary.LittleEndian.PutUint32] writes these four bytes. *)
Definition le32 (v : Z) : bytes :=
  [Z.land v 255; Z.land (Z.shiftr v 8) 255;
   Z.land (Z.shiftr v 16) 255; Z.land (Z.shiftr v 24) 255].

(** [WriteU64LE(uint64(x))]: the eight little-endian bytes of the two's
    complement of [x]. *)
Definition le64 (v : Z) : bytes :=
  let u := v mod 2 ^ 64 in
  map (fun i => Z.land (Z.shiftr u (8 * i)) 255) [0; 1; 2; 3; 4; 5; 6; 7].

Fixpoint of_le (b : bytes) : Z :=
  match b with
  | [] => 0
  | x :: b' => x + 256 * of_le b'
  end.

(** Go slices as lists: [copy(dst, src)] overwrites the first
    [min(len(dst), len(src))] cells of [dst]; writing at an offset is a
    copy into the tail slice [dst[off:]]. *)
Definition copy (dst src : bytes) : bytes :=
  take (length dst) src ++ drop (length src) dst.

Definition at_offset (off : nat) (f : bytes -> bytes) (dst : bytes) : bytes :=
  take off dst ++ f (drop off dst).

(** ** Hashes *)

(** [util.Uint160] and [util.Uint256] are byte arrays of 20 and 32 cells;
    a value is represented by its big-endian bytes, as [BytesBE] returns
    them. *)
Abbreviation Uint160 := (list Z) (only parsing).
Abbreviation Uint256 := (list Z) (only parsing).

Definition Uint160Size : nat := 20.
Definition Uint256Size : nat := 32.

Definition BytesBE (u : list Z) : bytes := u.
Definition BytesLE (u : list Z) : bytes := rev u.

Definition Equals (a b : Uint160) : bool := bool_decide (a = b).

(** ** Errors and outcomes *)

Inductive error : Type :=
| ErrKeyNotFound            (* storage.ErrKeyNotFound *)
| ErrCodec                  (* the sticky error of a BinReader or BinWriter *)
| ErrChain                  (* an error reported by the Blockchainer *)
| ErrMsg (msg : string).    (* errors.New and fmt.Errorf *)

(** A Go function returning [(T, error)] without touching shared state. *)
Inductive result (A : Type) : Type :=
| ROk (a : A)
| RErr (e : error).
Arguments ROk {A} a.
Arguments RErr {A} e.

(** What a [panic] carries: a message or an error value. *)
Inductive panicValue : Type :=
| PanicMsg (msg : string)
| PanicErr (e : error)
| PanicRuntime.             (* nil dereference, index out of range *)

(** A Go function working on mutable state [S]: it returns, returns an
    error, or panics; the state reached is kept in all three cases, since
    mutations made before an error stay made. *)
Inductive Outcome (S A : Type) : Type :=
| Ok (a : A) (s : S)
| Err (e : error) (s : S)
| Panic (p : panicValue) (s : S).
Arguments Ok {S A} a s.
Arguments Err {S A} e s.
Arguments Panic {S A} p s.

Definition M (S A : Type) : Type := S -> Outcome S A.

Definition ret {S A} (a : A) : M S A := fun s => Ok a s.

Definition bind {S A B} (m : M S A) (k : A -> M S B) : M S B :=
  fun s =>
    match m s with
    | Ok a s' => k a s'
    | Err e s' => Err e s'
    | Panic p s' => Panic p s'
    end.

Definition throw {S A} (e : error) : M S A := fun s => Err e s.
Definition panic {S A} (p : panicValue) : M S A := fun s => Panic p s.

Definition gets {S A} (f : S -> A) : M S A := fun s => Ok (f s) s.
Definition modify {S} (f : S -> S) : M S unit := fun s => Ok tt (f s).

(** [if err != nil { panic(err) }] around a call. *)
Definition orPanic {S A} (m : M S A) : M S A :=
  fun s =>
    match m s with
    | Err e s' => Panic (PanicErr e) s'
    | o => o
    end.

Definition outcome_state {S A} (o : Outcome S A) : S :=
  match o with
  | Ok _ s => s
  | Err _ s => s
  | Panic _ s => s
  end.

Definition outcome_value {S A} (o : Outcome S A) : option A :=
  match o with
  | Ok a _ => Some a
  | _ => None
  end.

Declare Scope go_scope.
Delimit Scope go_scope with go.
Notation "'let!' x ':=' m 'in' k" := (bind m (fun x => k))
  (at level 10, x name, m at level 100, k at level 200) : go_scope.
Notation "'do!' m 'in' k" := (bind m (fun _ => k))
  (at level 10, m at level 100, k at level 200) : go_scope.
Open Scope go_scope.

(** ** Serializable entities *)

(** [io.Serializable]: [EncodeBinary] fills a buffer, [DecodeBinary] reads
    an entity back; [None] is the writer's or the reader's sticky error. *)
Class Serializable (T : Type) : Type := {
  EncodeBinary : T -> option bytes;
  DecodeBinary : bytes -> option T;
}.

(** ** Ledger state entities (package [state]) *)

Record NEP5BalanceState : Type := { Balance : Z }.

Record NEOBalanceState : Type := {
  NEOBalance : NEP5BalanceState;      (* the embedded NEP5BalanceState *)
  BalanceHeight : Z;
}.

(** [NEP5BalanceState.EncodeBinary] and [NEOBalanceState.EncodeBinary]. *)
Definition NEP5BalanceState_encode (s : NEP5BalanceState) : bytes :=
  le64 (Balance s).

Definition NEP5BalanceState_decode (b : bytes) : NEP5BalanceState :=
  {| Balance := wrap64 (of_le (take 8 b)) |}.

Definition NEOBalanceState_encode (s : NEOBalanceState) : bytes :=
  NEP5BalanceState_encode (NEOBalance s) ++ le32 (BalanceHeight s).

Definition NEOBalanceState_decode (b : bytes) : NEOBalanceState :=
  {| NEOBalance := NEP5BalanceState_decode b;
     BalanceHeight := of_le (take 4 (drop 8 b)) |}.

(** The fields of [state.Account] the native tokens work on. *)
Record Account : Type := {
  ScriptHash : Uint160;
  NEO : NEOBalanceState;
  GAS : NEP5BalanceState;
}.

Definition NewAccount (h : Uint160) : Account :=
  {| ScriptHash := h;
     NEO := {| NEOBalance := {| Balance := 0 |}; BalanceHeight := 0 |};
     GAS := {| Balance := 0 |} |}.

(** [state.Asset] and [state.Contract], by what the DAO looks at. *)
Record Asset : Type := {
  ID : Uint256;
  AssetData : bytes;                  (* the remaining fields, serialized *)
}.

Record Contract : Type := {
  Script : bytes;
  Properties : Z;
}.

(** [keys.PublicKey]: a curve point. *)
Record PublicKey : Type := { X : Z; Y : Z }.

(** [state.Validator]: public key, registration flag, accumulated votes. *)
Record Validator : Type := {
  ValidatorKey : PublicKey;           (* field PublicKey *)
  Registered : bool;
  Votes : Z;
}.

(** [state.ValidatorsCount]: the per-committee-size tallies. *)
Abbreviation ValidatorsCount := (list Z) (only parsing).

#[global] Instance PublicKey_eq_dec : EqDecision PublicKey.
Proof. solve_decision. Defined.

(** ** Stack items and the VM (package [vm]) *)

#[local] Set Warnings "-register-all".
Inductive StackItem : Type :=
| NilItem                            (* Go's nil interface value *)
| BoolItem (b : bool)
| BigIntegerItem (z : Z)
| ByteArrayItem (b : bytes)
| ArrayItem (l : list StackItem)
| StructItem (l : list StackItem)
| MapItem (l : list (StackItem * StackItem))
| InteropItem.
#[local] Set Warnings "register-all".

Record NotificationEvent : Type := {
  EventScriptHash : Uint160;
  Item : StackItem;
}.

(** Modelled from the spec: package [vm] is not part of these sources. The
    VM as the interops see it: the evaluation stack (top first), the
    script hashes of the invocation stack's contexts (current first) and
    the hash set by [SetCheckedHash]; [Pop] on an empty stack gives
    nothing, which the callers dereference and so panic on. *)
Record VM : Type := {
  estack : list StackItem;
  istack : list Uint160;
  checkedHash : option bytes;
}.

Definition Pop (v : VM) : option (StackItem * VM) :=
  match estack v with
  | [] => None
  | it :: rest =>
      Some (it, {| estack := rest; istack := istack v;
                   checkedHash := checkedHash v |})
  end.

Definition PushVal (it : StackItem) (v : VM) : VM :=
  {| estack := it :: estack v; istack := istack v;
     checkedHash := checkedHash v |}.

Definition SetCheckedHash (h : bytes) (v : VM) : VM :=
  {| estack := estack v; istack := istack v; checkedHash := Some h |}.

Definition getContextScriptHash (v : VM) (n : nat) : option Uint160 :=
  istack v !! n.

(** ** What the sources take from outside *)

(** Functions of packages [hash], [keys], [emit], [vm] and [state] that the
    embedded code calls and whose bodies are not part of it. *)
Class Host : Type := {
  Hash160 : bytes -> Uint160;
  Sha256 : bytes -> bytes;
  emitSyscall : string -> bytes;
  (* keys.PublicKey: Bytes, DecodeBytes and signature verification *)
  PublicKeyBytes : PublicKey -> bytes;
  PublicKeyDecodeBytes : bytes -> option PublicKey;
  Verify : bytes -> bytes -> bytes -> bool;   (* key, signature, hash *)
  (* vm.StackItem conversions and stack helpers *)
  TryBytes : StackItem -> result bytes;
  TryInteger : StackItem -> result Z;
  ElementBytes : StackItem -> option bytes;            (* None: panics *)
  ElementArray : StackItem -> option (list StackItem); (* None: panics *)
  PopSigElements : VM -> result (list bytes) * VM;
  (* state.ValidatorsCount: the array length and its weighted average *)
  MaxValidatorsVoted : nat;
  GetWeightedAverage : ValidatorsCount -> Z;
}.

(** ** Storage prefixes (package [storage]) *)

(** Modelled from the spec: the one-byte key prefixes of the persistent
    store's key layout, which package [storage] declares. *)
Definition STAccount : Z := 64.          (* 0x40 *)
Definition STValidator : Z := 68.        (* 0x44 *)
Definition STAsset : Z := 72.            (* 0x48 *)
Definition STContract : Z := 80.         (* 0x50 *)
Definition IXValidatorsCount : Z := 147. (* 0x93 *)
Definition STNEP5Transfers : Z := 162.   (* 0xA2 *)

Definition AppendPrefix (k : Z) (b : bytes) : bytes := k :: b.

(** ** The data access object *)

(** The DAO's [MemCachedStore], seen through [Get], [Put] and [Seek]: the
    overlay and its parent flattened into one finite map from keys to
    values. [Get] fails on an absent key only, and [Put], which writes to
    the overlay, does not fail. *)
Abbreviation Store := (gmap (list Z) (list Z)) (only parsing).

Definition store_Get (s : Store) (key : bytes) : result bytes :=
  match s !! key with
  | Some v => ROk v
  | None => RErr ErrKeyNotFound
  end.

Definition store_Put (s : Store) (key value : bytes) : Store :=
  <[key := value]> s.

(** [Seek(prefix, f)] visits the pairs whose key starts with [prefix];
    the callers embedded here sort what they collect, so the order of
    the visit is left to the map. *)
Definition store_Seek (s : Store) (pfx : bytes) : list (bytes * bytes) :=
  filter (fun kv => pfx `prefix_of` kv.1) (map_to_list s).

Section DAO.
Context `{HostI : Host}.
Context `{SerAccount : Serializable Account}
        `{SerAsset : Serializable Asset}
        `{SerContract : Serializable Contract}
        `{SerValidator : Serializable Validator}
        `{SerValidatorsCount : Serializable ValidatorsCount}.

Definition GetAndDecode {T} `{Serializable T} (d : Store) (key : bytes)
  : result T :=
  match store_Get d key with
  | RErr e => RErr e
  | ROk entityBytes =>
      match DecodeBinary entityBytes with
      | Some entity => ROk entity
      | None => RErr ErrCodec
      end
  end.

Definition putWithBuffer {T} `{Serializable T} (d : Store) (entity : T)
    (key : bytes) : result Store :=
  match EncodeBinary entity with
  | None => RErr ErrCodec
  | Some buf => ROk (store_Put d key buf)
  end.

Definition Put {T} `{Serializable T} (d : Store) (entity : T) (key : bytes)
  : result Store :=
  putWithBuffer d entity key.

(** -- accounts *)

Definition accountKey (h : Uint160) : bytes :=
  AppendPrefix STAccount (BytesBE h).

Definition GetAccountState (d : Store) (h : Uint160) : result Account :=
  GetAndDecode d (accountKey h).

Definition GetAccountStateOrNew (d : Store) (h : Uint160) : result Account :=
  match GetAccountState d h with
  | RErr ErrKeyNotFound => ROk (NewAccount h)
  | RErr e => RErr e
  | ROk account => ROk account
  end.

Definition PutAccountState (d : Store) (a : Account) : result Store :=
  putWithBuffer d a (accountKey (ScriptHash a)).

(** -- assets *)

Definition GetAssetState (d : Store) (assetID : Uint256) : result Asset :=
  match GetAndDecode d (AppendPrefix STAsset (BytesBE assetID)) with
  | RErr e => RErr e
  | ROk asset =>
      if bool_decide (ID asset <> assetID)
      then RErr (ErrMsg "found asset id is not equal to expected")
      else ROk asset
  end.

Definition PutAssetState (d : Store) (a : Asset) : result Store :=
  Put d a (AppendPrefix STAsset (BytesBE (ID a))).

(** -- contracts *)

Definition Contract_ScriptHash (c : Contract) : Uint160 :=
  Hash160 (Script c).

Definition GetContractState (d : Store) (h : Uint160) : result Contract :=
  match GetAndDecode d (AppendPrefix STContract (BytesBE h)) with
  | RErr e => RErr e
  | ROk contract =>
      if bool_decide (Contract_ScriptHash contract <> h)
      then RErr (ErrMsg "found script hash is not equal to expected")
      else ROk contract
  end.

Definition PutContractState (d : Store) (c : Contract) : result Store :=
  Put d c (AppendPrefix STContract (BytesBE (Contract_ScriptHash c))).

(** -- transfer log *)

Definition getNEP5TransferLogKey (acc : Uint160) (index : Z) : bytes :=
  let key := replicate (1 + Uint160Size + 4)%nat 0 in
  let key := <[0%nat := STNEP5Transfers]> key in
  let key := at_offset 1 (fun dst => copy dst (BytesBE acc)) key in
  let key := at_offset Uint160Size (fun dst => copy dst (le32 index)) key in
  key.

(** -- validators *)

Definition validatorKey (pub : PublicKey) : bytes :=
  AppendPrefix STValidator (PublicKeyBytes pub).

Definition GetValidatorState (d : Store) (pub : PublicKey)
  : result Validator :=
  GetAndDecode d (validatorKey pub).

Definition PutValidatorState (d : Store) (vs : Validator) : result Store :=
  Put d vs (validatorKey (ValidatorKey vs)).

(** [GetValidators]: every value under the validator prefix that
    decodes; the others are skipped. *)
Definition GetValidators (d : Store) : list Validator :=
  omap (fun kv => DecodeBinary kv.2) (store_Seek d [STValidator]).

(** [GetValidatorsCount]: the stored tallies, or the zero value of the
    array when there is none. *)
Definition GetValidatorsCount (d : Store) : result ValidatorsCount :=
  match GetAndDecode d [IXValidatorsCount] with
  | ROk vc => ROk vc
  | RErr ErrKeyNotFound => ROk (replicate MaxValidatorsVoted 0)
  | RErr e => RErr e
  end.

End DAO.

(** ** The interop context and the native tokens' state *)

(** What the natives use of [blockchainer.Blockchainer]. *)
Record Blockchainer : Type := {
  (* value, startHeight, endHeight -> (system part, network part) *)
  CalculateClaimable : Z -> Z -> Z -> result (Z * Z);
  GetStandByValidators : result (list PublicKey);
}.

Record Block : Type := { Index : Z }.

(** The [interopContext] ([bc], [block], [dao], [notifications]) together
    with the mutable [totalSupply] fields of the two native token objects,
    which live beside it and are reached through pointers. *)
Record World : Type := {
  bc : Blockchainer;
  block : option Block;
  dao : Store;
  notifications : list NotificationEvent;
  neoTotalSupply : Z;
  gasTotalSupply : Z;
}.

Definition set_dao (d : Store) (w : World) : World :=
  {| bc := bc w; block := block w; dao := d;
     notifications := notifications w;
     neoTotalSupply := neoTotalSupply w; gasTotalSupply := gasTotalSupply w |}.

Definition set_notifications (n : list NotificationEvent) (w : World) : World :=
  {| bc := bc w; block := block w; dao := dao w;
     notifications := n;
     neoTotalSupply := neoTotalSupply w; gasTotalSupply := gasTotalSupply w |}.


Definition set_gasTotalSupply (z : Z) (w : World) : World :=
  {| bc := bc w; block := block w; dao := dao w;
     notifications := notifications w;
     neoTotalSupply := neoTotalSupply w; gasTotalSupply := z |}.

Definition set_GAS_Balance (z : Z) (a : Account) : Account :=
  {| ScriptHash := ScriptHash a; NEO := NEO a; GAS := {| Balance := z |} |}.



(** A pure [(T, error)] call inside stateful code. *)
Definition liftR {S A} (r : result A) : M S A :=
  fun s =>
    match r with
    | ROk a => Ok a s
    | RErr e => Err e s
    end.

Definition daoGet {A} (f : Store -> result A) : M World A :=
  fun w => liftR (f (dao w)) w.

Definition daoPut (f : Store -> result Store) : M World unit :=
  fun w =>
    match f (dao w) with
    | ROk d' => Ok tt (set_dao d' w)
    | RErr e => Err e w
    end.

(** A callee that is handed a pointer to an account works on the world
    and on that account cell. *)
Definition withAccount (acc : Account) (m : M (World * Account) unit)
  : M World Account :=
  fun w =>
    match m (w, acc) with
    | Ok _ (w', acc') => Ok acc' w'
    | Err e (w', _) => Err e w'
    | Panic p (w', _) => Panic p w'
    end.


(** ** The NEP-5 native template *)

(** [nep5TokenNative]. The [totalSupply] field is mutable and is kept in
    the [World]; the record holds the way to it. *)
Record nep5TokenNative : Type := {
  name : string;
  symbol : string;
  decimals : Z;
  factor : Z;
  totalSupply : World -> Z;
  set_totalSupply : Z -> World -> World;
  hash : Uint160;
  incBalance : Z -> M (World * Account) unit;
}.

(** [big.Int.Int64]: the low 64 bits of the magnitude, with the sign. *)
Definition Int64 (bi : Z) : Z :=
  let v := wrap64 (Z.abs bi) in
  if bi <? 0 then neg64 v else v.

Section NEP5.
Context `{HostI : Host}.
Context `{SerAccount : Serializable Account}
        `{SerValidator : Serializable Validator}
        `{SerValidatorsCount : Serializable ValidatorsCount}.

Definition getScriptHash (syscallName : string) : Uint160 :=
  Hash160 (emitSyscall syscallName).




(** [args[i]]; out of range panics. *)
Definition arg {S} (args : list StackItem) (i : nat) : M S StackItem :=
  match args !! i with
  | Some a => ret a
  | None => panic PanicRuntime
  end.

Definition addrToStackItem (u : option Uint160) : StackItem :=
  match u with
  | None => NilItem
  | Some h => ByteArrayItem (BytesBE h)
  end.

Definition transferEvent (c : nep5TokenNative) (from to : option Uint160)
    (amount : Z) : NotificationEvent :=
  {| EventScriptHash := hash c;
     Item := ArrayItem [ByteArrayItem (bytes_of_string "Transfer");
                        addrToStackItem from;
                        addrToStackItem to;
                        BigIntegerItem amount] |}.

Definition emitTransfer (c : nep5TokenNative) (from to : option Uint160)
    (amount : Z) : M World unit :=
  modify (fun w =>
    set_notifications (notifications w ++ [transferEvent c from to amount]) w).

Definition transfer (c : nep5TokenNative) (from to : Uint160) (amount : Z)
  : M World unit :=
  if amount <? 0 then throw (ErrMsg "negative amount")
  else
    let! accFrom := daoGet (fun d => GetAccountStateOrNew d from) in
    let isEmpty := Equals from to || (amount =? 0) in
    let inc := if isEmpty then 0 else amount in
    let! accFrom := withAccount accFrom (incBalance c inc) in
    do! daoPut (fun d => PutAccountState d accFrom) in
    do! (if negb isEmpty then
           let! accTo := daoGet (fun d => GetAccountStateOrNew d to) in
           let! accTo := withAccount accTo (incBalance c amount) in
           daoPut (fun d => PutAccountState d accTo)
         else ret tt) in
    emitTransfer c (Some from) (Some to) amount.


Definition mint (c : nep5TokenNative) (h : Uint160) (amount : Z)
  : M World unit :=
  if amount <? 0 then panic (PanicMsg "negative amount")
  else if amount =? 0 then ret tt
  else
    let! acc := orPanic (daoGet (fun d => GetAccountStateOrNew d h)) in
    let! acc := orPanic (withAccount acc (incBalance c amount)) in
    do! orPanic (daoPut (fun d => PutAccountState d acc)) in
    do! modify (fun w => set_totalSupply c (add64 (totalSupply c w) amount) w) in
    emitTransfer c None (Some h) amount.


(** ** The utility token, GAS *)

Definition gasSyscallName : string := "Neo.Native.Tokens.GAS".

Definition gas_increaseBalance (amount : Z) : M (World * Account) unit :=
  fun s =>
    let acc := s.2 in
    if amount =? 0 then Ok tt s
    else if (amount <? 0) && (Balance (GAS acc) <? neg64 amount)
    then Err (ErrMsg "insufficient funds") s
    else Ok tt (s.1, set_GAS_Balance (add64 (Balance (GAS acc)) amount) acc).

Definition gasNative : nep5TokenNative :=
  {| name := "GAS";
     symbol := "gas";
     decimals := 8;
     factor := 100000000;
     totalSupply := gasTotalSupply;
     set_totalSupply := set_gasTotalSupply;
     hash := getScriptHash gasSyscallName;
     incBalance := gas_increaseBalance |}.

(** ** The governance token, NEO *)





(** The two tokens of the chain. *)
Inductive Token : Type := NEOToken | GASToken.


Definition tokenBalance (t : Token) (a : Account) : Z :=
  match t with
  | NEOToken => Balance (NEOBalance (NEO a))
  | GASToken => Balance (GAS a)
  end.

(** -- validator registration *)

Definition toPublicKey {S} (s : StackItem) : M S PublicKey :=
  match TryBytes s with
  | RErr e => panic (PanicErr e)
  | ROk buf =>
      match PublicKeyDecodeBytes buf with
      | None => panic (PanicErr ErrCodec)
      | Some pub => ret pub
      end
  end.

Definition newValidator (pub : PublicKey) : Validator :=
  {| ValidatorKey := pub; Registered := false; Votes := 0 |}.

Definition registerValidatorInternal (pub : PublicKey) : M World unit :=
  fun w =>
    match GetValidatorState (dao w) pub with
    | ROk _ => Ok tt w
    | RErr _ => daoPut (fun d => PutValidatorState d (newValidator pub)) w
    end.

Definition registerValidator (args : list StackItem) : M World StackItem :=
  let! a0 := arg args 0 in
  let! pub := toPublicKey a0 in
  fun w =>
    match registerValidatorInternal pub w with
    | Ok _ w' => Ok (BoolItem true) w'
    | Err _ w' => Ok (BoolItem false) w'
    | Panic p w' => Panic p w'
    end.

End NEP5.

(** ** Native contracts and their dispatch *)

(** [NativeMethod]: a handler works on the interop context and returns a
    stack item, or panics. *)
Definition NativeMethod : Type := list StackItem -> M World StackItem.

Record MethodMD : Type := {
  Func : NativeMethod;
  Price : Z;
  RequiredFlags : Z;
}.

Record NativeContract : Type := {
  ServiceName : string;
  ContractHash : Uint160;             (* field Hash *)
  Methods : gmap string MethodMD;
}.

Section Interop.
Context `{HostI : Host}.

(** [interopContext.getNativeInterop]: the interop a native contract is
    reached through. It works on the VM and on the interop context. *)
Definition getNativeInterop (c : NativeContract) : M (VM * World) unit :=
  fun s =>
    let v := s.1 in
    let w := s.2 in
    match getContextScriptHash v 0 with
    | None => Panic PanicRuntime s
    | Some h =>
        if negb (Equals h (ContractHash c))
        then Err (ErrMsg "invalid hash") s
        else
          match Pop v with
          | None => Panic PanicRuntime s
          | Some (nameItem, v1) =>
              match ElementBytes nameItem with
              | None => Panic PanicRuntime (v1, w)
              | Some nameBytes =>
                  let name := string_of_bytes nameBytes in
                  match Pop v1 with
                  | None => Panic PanicRuntime (v1, w)
                  | Some (argsItem, v2) =>
                      match ElementArray argsItem with
                      | None => Panic PanicRuntime (v2, w)
                      | Some args =>
                          match Methods c !! name with
                          | None =>
                              Err (ErrMsg ("method " ++ name ++ " not found"))
                                  (v2, w)
                          | Some m =>
                              match Func m args w with
                              | Ok result w' => Ok tt (PushVal result v2, w')
                              | Err e w' => Err e (v2, w')
                              | Panic p w' => Panic p (v2, w')
                              end
                          end
                      end
                  end
              end
          end
    end.

(** ** ECDSA multisig *)

(** Modelled from the spec: [vm.CheckMultisigPar], which is not part of
    these sources, walks the public key list matching the signatures in
    order against the checked hash; it succeeds iff every signature
    matches some public key not yet consumed. *)
Fixpoint checkMultisig (h : bytes) (pkeys sigs : list bytes) : bool :=
  match sigs with
  | [] => true
  | sig :: sigs' =>
      match pkeys with
      | [] => false
      | key :: pkeys' =>
          if Verify key sig h then checkMultisig h pkeys' sigs'
          else checkMultisig h pkeys' sigs
      end
  end.

Definition CheckMultisigPar (v : VM) (pkeys sigs : list bytes) : bool :=
  match checkedHash v with
  | Some h => checkMultisig h pkeys sigs
  | None => false
  end.

Definition ecdsaCheckMultisig : M VM unit :=
  fun v =>
    match Pop v with
    | None => Panic PanicRuntime v
    | Some (msgItem, v1) =>
        match TryBytes msgItem with
        | RErr e => Err e v1
        | ROk msg =>
            let hashToCheck := Sha256 msg in
            match PopSigElements v1 with
            | (RErr _, v2) => Err (ErrMsg "wrong parameters") v2
            | (ROk pkeys, v2) =>
                match PopSigElements v2 with
                | (RErr _, v3) => Err (ErrMsg "wrong parameters") v3
                | (ROk sigs, v3) =>
                    if (length pkeys <? length sigs)%nat
                    then Err (ErrMsg "more signatures than there are keys") v3
                    else
                      let v4 := SetCheckedHash hashToCheck v3 in
                      let sigok := CheckMultisigPar v4 pkeys sigs in
                      Ok tt (PushVal (BoolItem sigok) v4)
                end
            end
        end
    end.

End Interop.

(** ** Validator selection *)

(** Modelled from the spec: [keys.PublicKey.Cmp], which is not part of these
    sources, is the deterministic public-key comparison; it orders the
    points by X and then by Y and returns -1, 0 or 1. *)
Definition Cmp (a b : PublicKey) : Z :=
  match X a ?= X b with
  | Lt => -1
  | Gt => 1
  | Eq => match Y a ?= Y b with
          | Lt => -1
          | Gt => 1
          | Eq => 0
          end
  end.

(** Modelled from the spec: [keys.PublicKeys.Contains] and [Unique], which
    are not part of these sources; [Unique] keeps the first occurrence of
    every key. *)
Definition Contains (ks : list PublicKey) (k : PublicKey) : bool :=
  bool_decide (k ∈ ks).

Fixpoint UniqueFrom (acc ks : list PublicKey) : list PublicKey :=
  match ks with
  | [] => acc
  | k :: ks' => UniqueFrom (if Contains acc k then acc else acc ++ [k]) ks'
  end.

Definition Unique (ks : list PublicKey) : list PublicKey := UniqueFrom [] ks.

(** Modelled from the spec: [state.Validator.RegisteredAndHasVotes]. *)
Definition RegisteredAndHasVotes (v : Validator) : bool :=
  Registered v && (0 <? Votes v).

(** The comparison handed to [sort.Slice] in [getValidators]. *)
Definition validatorLess (a b : Validator) : bool :=
  if negb (eqb (Registered a) (Registered b)) then Registered a
  else if negb (Votes a =? Votes b) then Votes b <? Votes a
  else Cmp (ValidatorKey a) (ValidatorKey b) =? -1.

(** [sort.Slice] and [sort.Sort] are modelled by a merge sort along the
    order "not greater than". Elements that neither comparison tells
    apart carry the same public key, so the keys that come out do not
    depend on the sorting algorithm. *)
Definition ValidatorLe (a b : Validator) : Prop := validatorLess b a = false.
Definition KeyLe (a b : PublicKey) : Prop := Cmp a b <= 0.

#[global] Instance ValidatorLe_dec : RelDecision ValidatorLe.
Proof. intros a b. unfold ValidatorLe. apply _. Defined.

#[global] Instance KeyLe_dec : RelDecision KeyLe.
Proof. intros a b. unfold KeyLe. apply _. Defined.

Definition sortValidators (vs : list Validator) : list Validator :=
  merge_sort ValidatorLe vs.

Definition sortKeys (ks : list PublicKey) : list PublicKey :=
  merge_sort KeyLe ks.

(** The loop that tops the result up from the standby set. *)
Fixpoint topUp (sb : list PublicKey) (count : Z) (res : list PublicKey)
  : list PublicKey :=
  match sb with
  | [] => res
  | k :: sb' =>
      if Z.of_nat (length res) <? count
      then topUp sb' count (if Contains res k then res else res ++ [k])
      else res
  end.

(** The validators that qualify: registered with votes, or standby. *)
Definition qualifying (validators : list Validator)
    (standByValidators : list PublicKey) : list Validator :=
  filter (fun v => RegisteredAndHasVotes v
                   || Contains (Unique standByValidators) (ValidatorKey v))
         validators.

Section Validators.
Context `{HostI : Host}.
Context `{SerValidator : Serializable Validator}
        `{SerValidatorsCount : Serializable ValidatorsCount}.

Definition pubsToArray (pubs : list PublicKey) : StackItem :=
  ArrayItem (map (fun p => ByteArrayItem (PublicKeyBytes p)) pubs).

(** The committee size [getValidators] aims at. *)
Definition committeeSize (validatorsCount : ValidatorsCount)
    (standByValidators : list PublicKey) : Z :=
  let count := GetWeightedAverage validatorsCount in
  if count <? Z.of_nat (length standByValidators)
  then Z.of_nat (length standByValidators)
  else count.

(** The public keys [getValidators] selects when the tallies array is
    not empty. *)
Definition selectValidators (validators : list Validator)
    (validatorsCount : ValidatorsCount)
    (standByValidators : list PublicKey) : list PublicKey :=
  let validators := sortValidators validators in
  let count := committeeSize validatorsCount standByValidators in
  let uniqueSBValidators := Unique standByValidators in
  let result :=
    map ValidatorKey
      (filter (fun v => RegisteredAndHasVotes v
                        || Contains uniqueSBValidators (ValidatorKey v))
              validators) in
  let result :=
    if count <=? Z.of_nat (length result)
    then take (Z.to_nat count) result
    else topUp uniqueSBValidators count result in
  sortKeys result.

(** [len(validatorsCount)] is the length of the array type. *)
Definition getValidatorsKeys (w : World) : Outcome World (list PublicKey) :=
  match GetValidatorsCount (dao w) with
  | RErr e => Panic (PanicErr e) w
  | ROk validatorsCount =>
      if (MaxValidatorsVoted =? 0)%nat
      then
        match GetStandByValidators (bc w) with
        | RErr e => Panic (PanicErr e) w
        | ROk sb => Ok sb w
        end
      else
        let validators := GetValidators (dao w) in
        match GetStandByValidators (bc w) with
        | RErr e => Panic (PanicErr e) w
        | ROk standByValidators =>
            Ok (selectValidators validators validatorsCount
                  standByValidators) w
        end
  end.

Definition getValidators (_ : list StackItem) : M World StackItem :=
  let! keys := getValidatorsKeys in
  ret (pubsToArray keys).

End Validators.

(** ** Observations on the store *)

Section Observations.
Context `{HostI : Host}.
Context `{SerAccount : Serializable Account}.

(** The accounts the store holds: every value under the account prefix
    that decodes. *)
Definition storedAccounts (d : Store) : list Account :=
  omap (fun kv => DecodeBinary kv.2) (store_Seek d [STAccount]).

(** The sum of the per-account balances of a token. *)
Definition sumBalances (t : Token) (d : Store) : Z :=
  foldr Z.add 0 (map (tokenBalance t) (storedAccounts d)).



End Observations.

(** ** A concrete host for the examples *)

(** Test doubles for what lies outside the sources: a serialization of
    the modelled fields of every entity, a toy hash and a toy signature
    scheme in which the signature of [h] under [key] is [key ++ h]. *)
Module Fixture.

Definition encodeAccount (a : Account) : option bytes :=
  Some (ScriptHash a ++ NEOBalanceState_encode (NEO a)
                     ++ NEP5BalanceState_encode (GAS a)).

Definition decodeAccount (b : bytes) : option Account :=
  if (length b <? 20)%nat then None
  else
    let n := (length b - 20)%nat in
    Some {| ScriptHash := take n b;
            NEO := NEOBalanceState_decode (drop n b);
            GAS := NEP5BalanceState_decode (drop (n + 12) b) |}.

#[local] Instance serAccount : Serializable Account :=
  {| EncodeBinary := encodeAccount; DecodeBinary := decodeAccount |}.

#[local] Instance serAsset : Serializable Asset :=
  {| EncodeBinary := fun a => Some (ID a ++ AssetData a);
     DecodeBinary := fun b =>
       if (length b <? 32)%nat then None
       else Some {| ID := take 32 b; AssetData := drop 32 b |} |}.

#[local] Instance serContract : Serializable Contract :=
  {| EncodeBinary := fun c => Some (Properties c :: Script c);
     DecodeBinary := fun b =>
       match b with
       | [] => None
       | p :: s => Some {| Script := s; Properties := p |}
       end |}.

#[local] Instance serValidator : Serializable Validator :=
  {| EncodeBinary := fun v =>
       Some [X (ValidatorKey v); Y (ValidatorKey v);
             if Registered v then 1 else 0; Votes v];
     DecodeBinary := fun b =>
       match b with
       | [x; y; r; n] =>
           Some {| ValidatorKey := {| X := x; Y := y |};
                   Registered := negb (r =? 0); Votes := n |}
       | _ => None
       end |}.

#[local] Instance serValidatorsCount : Serializable ValidatorsCount :=
  {| EncodeBinary := fun vc => Some vc; DecodeBinary := fun b => Some b |}.

Definition popSigElements (v : VM) : result (list bytes) * VM :=
  match Pop v with
  | Some (ArrayItem items, v') =>
      match mapM (fun it => match it with
                            | ByteArrayItem b => Some b
                            | _ => None
                            end) items with
      | Some elems =>
          if (length elems <? 1)%nat
          then (RErr (ErrMsg "less than one element in the array"), v')
          else (ROk elems, v')
      | None => (RErr (ErrMsg "element is not a byte array"), v')
      end
  | Some (_, v') => (RErr (ErrMsg "not an array"), v')
  | None => (RErr (ErrMsg "nothing on the stack"), v)
  end.

#[local] Instance host : Host :=
  {| Hash160 := fun b => take 20 (b ++ replicate 20 0);
     Sha256 := fun b => b;
     emitSyscall := fun s => 104 :: bytes_of_string s;
     PublicKeyBytes := fun p => [X p; Y p];
     PublicKeyDecodeBytes := fun b =>
       match b with
       | [x; y] => Some {| X := x; Y := y |}
       | _ => None
       end;
     Verify := fun key sig h => bool_decide (sig = key ++ h);
     TryBytes := fun it =>
       match it with
       | ByteArrayItem b => ROk b
       | _ => RErr (ErrMsg "can't convert to ByteArray")
       end;
     TryInteger := fun it =>
       match it with
       | BigIntegerItem z => ROk z
       | _ => RErr (ErrMsg "can't convert to BigInteger")
       end;
     ElementBytes := fun it =>
       match it with
       | ByteArrayItem b => Some b
       | _ => None
       end;
     ElementArray := fun it =>
       match it with
       | ArrayItem l => Some l
       | StructItem l => Some l
       | _ => None
       end;
     PopSigElements := popSigElements;
     MaxValidatorsVoted := 4;
     GetWeightedAverage := fun vc =>
       let total := foldr Z.add 0 vc in
       if total =? 0 then 0
       else foldr Z.add 0 (imap (fun i n => (Z.of_nat i + 1) * n) vc)
            / total |}.

Definition chain : Blockchainer :=
  {| CalculateClaimable := fun value startHeight endHeight =>
       ROk (value * (endHeight - startHeight), 0);
     GetStandByValidators :=
       ROk [{| X := 3; Y := 1 |}; {| X := 2; Y := 5 |}; {| X := 7; Y := 2 |}] |}.

(** An interop context over an empty store, outside of any block. *)
Definition w0 : World :=
  {| bc := chain; block := None; dao := ∅; notifications := [];
     neoTotalSupply := 0; gasTotalSupply := 0 |}.

(** The same inside block 10. *)
Definition w10 : World :=
  {| bc := chain; block := Some {| Index := 10 |}; dao := ∅;
     notifications := []; neoTotalSupply := 0; gasTotalSupply := 0 |}.

Definition alice : Uint160 := replicate 20 17.
Definition bob : Uint160 := replicate 20 34.

Definition assetID : Uint256 := replicate 32 9.
Definition asset : Asset := {| ID := assetID; AssetData := [1; 2; 3] |}.
Definition contract : Contract := {| Script := [81; 102]; Properties := 1 |}.
Definition pub1 : PublicKey := {| X := 3; Y := 1 |}.
Definition pub2 : PublicKey := {| X := 5; Y := 4 |}.

(** A store holding one asset, one contract and one validator. *)
Definition d1 : Store :=
  <[validatorKey pub1 := [3; 1; 1; 7]]>
    (<[AppendPrefix STContract (Contract_ScriptHash contract) := [1; 81; 102]]>
       (<[AppendPrefix STAsset assetID := assetID ++ [1; 2; 3]]> ∅)).

Definition w1 : World := set_dao d1 w0.

(** The native contract of the test suite: one method, [sum]. *)
Definition sum (args : list StackItem) : M World StackItem :=
  match args with
  | BigIntegerItem s1 :: BigIntegerItem s2 :: _ =>
      ret (BigIntegerItem (add64 (Int64 s1) (Int64 s2)))
  | _ => panic PanicRuntime
  end.

Definition testNative : NativeContract :=
  {| ServiceName := "Test.Native.Sum";
     ContractHash := getScriptHash "Test.Native.Sum";
     Methods := {[ "sum"%string :=
                     {| Func := sum; Price := 1; RequiredFlags := 0 |} ]} |}.

Definition sumCall : VM :=
  {| estack := [ByteArrayItem (bytes_of_string "sum");
                ArrayItem [BigIntegerItem 14; BigIntegerItem 28]];
     istack := [getScriptHash "Test.Native.Sum"];
     checkedHash := None |}.

(** Three keys, and the message signed by the first and the third. *)
Definition msg : bytes := [77; 83; 71].
Definition key1 : bytes := [2; 11].
Definition key2 : bytes := [2; 22].
Definition key3 : bytes := [3; 33].
Definition sign (key : bytes) : bytes := key ++ msg.

Definition multisigCall (sigs : list bytes) : VM :=
  {| estack := [ByteArrayItem msg;
                ArrayItem (map ByteArrayItem [key1; key2; key3]);
                ArrayItem (map ByteArrayItem sigs)];
     istack := []; checkedHash := None |}.

(** Ten GAS minted to alice, then five transferred from alice to bob. *)
Definition wMint : World := outcome_state (mint gasNative alice 10 w0).
Definition wTransfer : World :=
  outcome_state (transfer gasNative alice bob 5 wMint).

Definition gasOf (w : World) (h : Uint160) : option Z :=
  match GetAccountState (dao w) h with
  | ROk a => Some (Balance (GAS a))
  | RErr _ => None
  end.


(** A chain whose standby list names one key twice, and a store whose
    tallies all sit on committee size four. *)
Definition chainDup : Blockchainer :=
  {| CalculateClaimable := CalculateClaimable chain;
     GetStandByValidators := ROk [pub1; pub1] |}.

Definition wDup : World :=
  {| bc := chainDup; block := None; dao := ∅; notifications := [];
     neoTotalSupply := 0; gasTotalSupply := 0 |}.

Definition wTally : World :=
  set_dao (<[[IXValidatorsCount] := [0; 0; 0; 5]]> ∅) w0.

End Fixture.


(** * Properties *)

(** ** Wrap-around arithmetic *)

Lemma wrap64_id z : isInt64 z -> wrap64 z = z.
Proof.
  unfold isInt64, MinInt64, MaxInt64, wrap64. intros Hz.
  rewrite Z.mod_small; lia.
Qed.

Lemma wrap64_range z : isInt64 (wrap64 z).
Proof.
  unfold isInt64, MinInt64, MaxInt64, wrap64.
  pose proof (Z.mod_pos_bound (z + 2 ^ 63) (2 ^ 64)). lia.
Qed.



Lemma neg64_MinInt64 : neg64 MinInt64 = MinInt64.
Proof. reflexivity. Qed.

(** ** The data access object *)

Section DAOFacts.
Context `{HostI : Host}.
Context `{SerAccount : Serializable Account}
        `{SerAsset : Serializable Asset}
        `{SerContract : Serializable Contract}
        `{SerValidator : Serializable Validator}.




(** C10. Whatever [GetAssetState] returns for [h] carries the ID [h], and
    whatever [GetContractState] returns for [h] has script hash [h]; a
    record that decodes to another identity yields the error. *)
Theorem Get_state_identity (d : Store) (h : list Z) :
  (forall a, GetAssetState d h = ROk a -> ID a = h)
  /\ (forall c, GetContractState d h = ROk c -> Contract_ScriptHash c = h)
  /\ (forall a, GetAndDecode d (AppendPrefix STAsset (BytesBE h)) = ROk a ->
        ID a <> h ->
        GetAssetState d h
        = RErr (ErrMsg "found asset id is not equal to expected"))
  /\ (forall c, GetAndDecode d (AppendPrefix STContract (BytesBE h)) = ROk c ->
        Contract_ScriptHash c <> h ->
        GetContractState d h
        = RErr (ErrMsg "found script hash is not equal to expected")).
Proof.
  unfold GetAssetState, GetContractState. repeat split.
  - intros a. destruct (GetAndDecode d _) as [x|e]; [|discriminate].
    case_bool_decide as Hid; [discriminate|].
    intros [= <-]. by destruct (decide (ID x = h)).
  - intros c. destruct (GetAndDecode d _) as [x|e]; [|discriminate].
    case_bool_decide as Hid; [discriminate|].
    intros [= <-]. by destruct (decide (Contract_ScriptHash x = h)).
  - intros a -> Hne. by rewrite bool_decide_eq_true_2.
  - intros c -> Hne. by rewrite bool_decide_eq_true_2.
Qed.

End DAOFacts.

(** ** Validator registration *)

Section RegisterFacts.
Context `{HostI : Host}.
Context `{SerAccount : Serializable Account}
        `{SerValidator : Serializable Validator}
        `{SerValidatorsCount : Serializable ValidatorsCount}.

(** C8. Registering a key that already has a stored validator record
    succeeds and changes nothing, and [registerValidator] pushes true;
    registering a key with no record stores a fresh validator record
    under that key. *)
Theorem registerValidator_spec (w : World) (pub : PublicKey) :
  (forall v, GetValidatorState (dao w) pub = ROk v ->
     registerValidatorInternal pub w = Ok tt w
     /\ forall args it buf,
          args !! 0%nat = Some it -> TryBytes it = ROk buf ->
          PublicKeyDecodeBytes buf = Some pub ->
          registerValidator args w = Ok (BoolItem true) w)
  /\ (dao w !! validatorKey pub = None ->
      forall buf, EncodeBinary (newValidator pub) = Some buf ->
        registerValidatorInternal pub w
        = Ok tt (set_dao (<[validatorKey pub := buf]> (dao w)) w)
        /\ forall args it kb,
             args !! 0%nat = Some it -> TryBytes it = ROk kb ->
             PublicKeyDecodeBytes kb = Some pub ->
             registerValidator args w
             = Ok (BoolItem true)
                  (set_dao (<[validatorKey pub := buf]> (dao w)) w)).
Proof.
  split.
  - intros v Hv.
    assert (Hint : registerValidatorInternal pub w = Ok tt w).
    { unfold registerValidatorInternal. by rewrite Hv. }
    split; [exact Hint|].
    intros args it buf Harg Hbytes Hdec.
    unfold registerValidator, bind, arg, toPublicKey, ret.
    by rewrite Harg, Hbytes, Hdec, Hint.
  - intros Hnone buf Henc.
    assert (Hint : registerValidatorInternal pub w
                   = Ok tt (set_dao (<[validatorKey pub := buf]> (dao w)) w)).
    { unfold registerValidatorInternal, GetValidatorState, GetAndDecode,
        store_Get.
      rewrite Hnone. unfold daoPut, PutValidatorState, Put, putWithBuffer.
      simpl. by rewrite Henc. }
    split; [exact Hint|].
    intros args it kb Harg Hbytes Hdec.
    unfold registerValidator, bind, arg, toPublicKey, ret.
    by rewrite Harg, Hbytes, Hdec, Hint.
Qed.

End RegisterFacts.

(** ** The transfer log key *)

Lemma getNEP5TransferLogKey_layout (acc : Uint160) (index : Z) :
  length acc = Uint160Size ->
  getNEP5TransferLogKey acc index
  = STNEP5Transfers :: take 19 acc ++ le32 index ++ [0].
Proof.
  intros Hlen.
  do 21 (destruct acc as [|? acc]; try discriminate Hlen).
  reflexivity.
Qed.

(** C5. The key built for an account whose hash ends in 0x22 and page 1:
    the page index starts at offset 20, on the last byte of the hash, and
    the last byte of the key stays zero; the key is not prefix, hash, page
    index, and two accounts that differ in the last byte of their hashes
    share their keys. *)
Theorem getNEP5TransferLogKey_offset :
  let acc := replicate 19 17 ++ [34] in
  let acc' := replicate 19 17 ++ [51] in
  getNEP5TransferLogKey acc 1
  = [STNEP5Transfers] ++ replicate 19 17 ++ [1; 0; 0; 0] ++ [0]
  /\ getNEP5TransferLogKey acc 1 <> [STNEP5Transfers] ++ BytesBE acc ++ le32 1
  /\ drop 21 (getNEP5TransferLogKey acc 1) <> le32 1
  /\ getNEP5TransferLogKey acc' 1 = getNEP5TransferLogKey acc 1.
Proof.
  repeat split; try (vm_compute; reflexivity); vm_compute; discriminate.
Qed.

(** ** The balance guard *)

Section BalanceFacts.
Context `{HostI : Host}.
Context `{SerAccount : Serializable Account}
        `{SerValidator : Serializable Validator}
        `{SerValidatorsCount : Serializable ValidatorsCount}.




End BalanceFacts.

(** ** Minting, burning and transferring *)

Section TokenFacts.
Context `{HostI : Host}.
Context `{SerAccount : Serializable Account}
        `{SerValidator : Serializable Validator}
        `{SerValidatorsCount : Serializable ValidatorsCount}.

Lemma add64_0_r a : isInt64 a -> add64 a 0 = a.
Proof. intros Ha. unfold add64. rewrite Z.add_0_r. by apply wrap64_id. Qed.








End TokenFacts.

(** ** Native dispatch and multisig *)

Section InteropFacts.
Context `{HostI : Host}.

(** C6. The dispatcher refuses, touching nothing, when the invoking
    context's script hash is not the native contract's; when it is and
    the popped name is in the method table, the handler runs on the
    popped argument array and its result is pushed; a name that is not
    in the table yields an error. *)
Theorem getNativeInterop_spec (c : NativeContract) (v : VM) (w : World)
    (h : Uint160) :
  getContextScriptHash v 0 = Some h ->
  (h <> ContractHash c ->
     getNativeInterop c (v, w) = Err (ErrMsg "invalid hash") (v, w))
  /\ (h = ContractHash c ->
      forall nameItem argsItem rest nameBytes args,
        estack v = nameItem :: argsItem :: rest ->
        ElementBytes nameItem = Some nameBytes ->
        ElementArray argsItem = Some args ->
        let name := string_of_bytes nameBytes in
        let v2 := {| estack := rest; istack := istack v;
                     checkedHash := checkedHash v |} in
        (forall m result w',
           Methods c !! name = Some m ->
           Func m args w = Ok result w' ->
           getNativeInterop c (v, w)
           = Ok tt ({| estack := result :: rest; istack := istack v;
                       checkedHash := checkedHash v |}, w'))
        /\ (Methods c !! name = None ->
            getNativeInterop c (v, w)
            = Err (ErrMsg ("method " ++ name ++ " not found")) (v2, w))).
Proof.
  intros Hctx. split.
  - intros Hne. unfold getNativeInterop. simpl. rewrite Hctx.
    unfold Equals. by rewrite bool_decide_eq_false_2.
  - intros -> nameItem argsItem rest nameBytes args Hstack Hname Hargs
      name v2.
    assert (Hhead :
      getNativeInterop c (v, w)
      = match Methods c !! name with
        | None => Err (ErrMsg ("method " ++ name ++ " not found")) (v2, w)
        | Some m =>
            match Func m args w with
            | Ok result w' => Ok tt (PushVal result v2, w')
            | Err e w' => Err e (v2, w')
            | Panic p w' => Panic p (v2, w')
            end
        end).
    { unfold getNativeInterop. simpl. rewrite Hctx.
      unfold Equals. rewrite bool_decide_eq_true_2 by done. simpl.
      unfold Pop. rewrite Hstack. rewrite Hname. simpl. rewrite Hargs.
      reflexivity. }
    split.
    + intros m result w' Hm Hrun. rewrite Hhead, Hm, Hrun. done.
    + intros Hm. by rewrite Hhead, Hm.
Qed.

(** The walk over the key list succeeds exactly when the signatures
    match, in order, a subsequence of the keys. *)
Lemma checkMultisig_sublist (h : bytes) (pkeys sigs : list bytes) :
  checkMultisig h pkeys sigs = true
  <-> exists ks, ks `sublist_of` pkeys
                 /\ Forall2 (fun k s => Verify k s h = true) ks sigs.
Proof.
  revert sigs. induction pkeys as [|key pkeys IH]; intros sigs.
  - destruct sigs as [|s sigs]; simpl.
    + split; [|done]. intros _. exists []. by split; constructor.
    + split; [done|]. intros (ks & Hsub & Hall).
      apply sublist_nil_r in Hsub as ->. inversion Hall.
  - destruct sigs as [|s sigs]; simpl.
    + split; [|done]. intros _. exists [].
      split; [apply sublist_nil_l|constructor].
    + destruct (Verify key s h) eqn:Hv.
      * rewrite IH. split.
        -- intros (ks & Hsub & Hall). exists (key :: ks).
           split; [by apply sublist_skip|by constructor].
        -- intros (ks & Hsub & Hall).
           destruct ks as [|k0 ks]; [inversion Hall|].
           apply Forall2_cons in Hall as [_ Hall].
           exists ks. split; [|done].
           apply sublist_cons_r in Hsub as [Hsub|(l' & [= _ <-] & Hsub)];
             [|done].
           trans (k0 :: ks); [by apply sublist_cons|done].
      * rewrite IH. split.
        -- intros (ks & Hsub & Hall). exists ks.
           split; [by apply sublist_cons|done].
        -- intros (ks & Hsub & Hall). exists ks. split; [|done].
           apply sublist_cons_r in Hsub as [Hsub|(l' & -> & Hsub)];
             [done|].
           apply Forall2_cons in Hall as [Hk _]. congruence.
Qed.

(** C9. With the message, the keys and the signatures popped:
    [ecdsaCheckMultisig] returns an error and pushes nothing when there
    are more signatures than keys; otherwise it pushes a boolean, which
    is true iff the signatures match, in order, keys taken along the key
    list, each key used once. *)
Theorem ecdsaCheckMultisig_spec (v v1 v2 v3 : VM) (msgItem : StackItem)
    (msg : bytes) (pkeys sigs : list bytes) :
  Pop v = Some (msgItem, v1) ->
  TryBytes msgItem = ROk msg ->
  PopSigElements v1 = (ROk pkeys, v2) ->
  PopSigElements v2 = (ROk sigs, v3) ->
  ((length pkeys < length sigs)%nat ->
     ecdsaCheckMultisig v
     = Err (ErrMsg "more signatures than there are keys") v3)
  /\ ((length sigs <= length pkeys)%nat ->
      exists sigok,
        ecdsaCheckMultisig v
        = Ok tt {| estack := BoolItem sigok :: estack v3;
                   istack := istack v3;
                   checkedHash := Some (Sha256 msg) |}
        /\ (sigok = true
            <-> exists ks,
                  ks `sublist_of` pkeys
                  /\ Forall2 (fun k s => Verify k s (Sha256 msg) = true)
                             ks sigs)).
Proof.
  intros Hpop Hmsg Hkeys Hsigs. unfold ecdsaCheckMultisig.
  rewrite Hpop, Hmsg, Hkeys, Hsigs. split.
  - intros Hlt. by destruct (Nat.ltb_spec (length pkeys) (length sigs));
      [|lia].
  - intros Hle. destruct (Nat.ltb_spec (length pkeys) (length sigs));
      [lia|].
    eexists. split; [reflexivity|].
    unfold CheckMultisigPar. simpl. apply checkMultisig_sublist.
Qed.

End InteropFacts.

(** ** Validator selection *)

Lemma KeyLe_spec (a b : PublicKey) :
  KeyLe a b <-> X a < X b \/ (X a = X b /\ Y a <= Y b).
Proof.
  unfold KeyLe, Cmp.
  destruct (Z.compare_spec (X a) (X b)); [|lia..].
  destruct (Z.compare_spec (Y a) (Y b)); lia.
Qed.

#[global] Instance KeyLe_total : Total KeyLe.
Proof. intros a b. rewrite !KeyLe_spec. lia. Qed.

#[global] Instance KeyLe_trans : Transitive KeyLe.
Proof. intros a b c. rewrite !KeyLe_spec. lia. Qed.

Lemma Cmp_spec (a b : PublicKey) :
  (Cmp a b = -1 <-> X a < X b \/ (X a = X b /\ Y a < Y b))
  /\ (Cmp a b = 0 <-> a = b).
Proof.
  unfold Cmp. destruct a as [xa ya], b as [xb yb]; simpl.
  destruct (Z.compare_spec xa xb); [destruct (Z.compare_spec ya yb)|..];
    (split; split; try lia; try discriminate; try congruence);
    intros [= ? ?]; lia.
Qed.

(** The order handed to [sort.Slice] is total, so the first sort leaves
    the registered validators in front, the most voted first and ties in
    key order. *)
#[global] Instance ValidatorLe_total : Total ValidatorLe.
Proof.
  intros a b. unfold ValidatorLe, validatorLess.
  destruct (Registered a), (Registered b); simpl; try tauto.
  - rewrite (Z.eqb_sym (Votes b) (Votes a)).
    destruct (Z.eqb_spec (Votes a) (Votes b)) as [Hv|Hv]; simpl.
    + destruct (Z.eqb_spec (Cmp (ValidatorKey b) (ValidatorKey a)) (-1))
        as [Hba|]; [|tauto].
      destruct (Z.eqb_spec (Cmp (ValidatorKey a) (ValidatorKey b)) (-1))
        as [Hab|]; [|tauto].
      apply Cmp_spec in Hba, Hab. lia.
    + destruct (Z.ltb_spec (Votes a) (Votes b)),
               (Z.ltb_spec (Votes b) (Votes a)); try tauto; lia.
  - rewrite (Z.eqb_sym (Votes b) (Votes a)).
    destruct (Z.eqb_spec (Votes a) (Votes b)) as [Hv|Hv]; simpl.
    + destruct (Z.eqb_spec (Cmp (ValidatorKey b) (ValidatorKey a)) (-1))
        as [Hba|]; [|tauto].
      destruct (Z.eqb_spec (Cmp (ValidatorKey a) (ValidatorKey b)) (-1))
        as [Hab|]; [|tauto].
      apply Cmp_spec in Hba, Hab. lia.
    + destruct (Z.ltb_spec (Votes a) (Votes b)),
               (Z.ltb_spec (Votes b) (Votes a)); try tauto; lia.
Qed.

Lemma sortValidators_sorted (vs : list Validator) :
  Sorted ValidatorLe (sortValidators vs).
Proof. apply Sorted_merge_sort, _. Qed.

Lemma topUp_length (sb : list PublicKey) (count : Z) (res : list PublicKey) :
  Z.of_nat (length res) <= count ->
  Z.of_nat (length (topUp sb count res)) <= count.
Proof.
  revert res. induction sb as [|k sb IH]; intros res Hres; simpl; [done|].
  destruct (Z.ltb_spec (Z.of_nat (length res)) count) as [Hlt|Hge]; [|done].
  apply IH. unfold Contains. case_bool_decide; [done|].
  rewrite length_app. simpl. lia.
Qed.

Lemma topUp_NoDup (sb : list PublicKey) (count : Z) (res : list PublicKey) :
  NoDup res -> NoDup (topUp sb count res).
Proof.
  revert res. induction sb as [|k sb IH]; intros res Hres; simpl; [done|].
  destruct (Z.of_nat (length res) <? count); [|done].
  apply IH. unfold Contains. case_bool_decide as Hin; [done|].
  apply NoDup_app. split; [done|]. split; [|apply NoDup_singleton].
  intros x Hx Hxk. apply list_elem_of_singleton in Hxk. by subst.
Qed.

Lemma topUp_incl (sb : list PublicKey) (count : Z) (res : list PublicKey)
    (k : PublicKey) :
  k ∈ res -> k ∈ topUp sb count res.
Proof.
  revert res. induction sb as [|k0 sb IH]; intros res Hk; simpl; [done|].
  destruct (Z.of_nat (length res) <? count); [|done].
  apply IH. unfold Contains. case_bool_decide; [done|].
  apply elem_of_app. by left.
Qed.

Lemma topUp_elem (sb : list PublicKey) (count : Z) (res : list PublicKey)
    (k : PublicKey) :
  k ∈ topUp sb count res -> k ∈ res \/ k ∈ sb.
Proof.
  revert res. induction sb as [|k0 sb IH]; intros res; simpl; [by left|].
  destruct (Z.of_nat (length res) <? count); [|by left].
  intros Hk. apply IH in Hk as [Hk|Hk].
  - unfold Contains in Hk. case_bool_decide; [by left|].
    apply elem_of_app in Hk as [Hk|Hk]; [by left|].
    apply list_elem_of_singleton in Hk as ->. right. by left.
  - right. by right.
Qed.

(** The loop stops short of [count] only when it has been through all of
    the standby keys, and then each of them is in the list. *)
Lemma topUp_all (sb : list PublicKey) (count : Z) (res : list PublicKey) :
  Z.of_nat (length (topUp sb count res)) < count ->
  forall k, k ∈ sb -> k ∈ topUp sb count res.
Proof.
  revert res. induction sb as [|k0 sb IH]; intros res Hlen k Hk.
  { inversion Hk. }
  simpl in *.
  destruct (Z.ltb_spec (Z.of_nat (length res)) count) as [Hlt|Hge]; [|lia].
  apply elem_of_cons in Hk as [-> | Hk]; [|by apply IH].
  apply topUp_incl. unfold Contains. case_bool_decide; [done|].
  apply elem_of_app. right. by apply list_elem_of_singleton.
Qed.

Lemma filter_iff_in {A} (P1 P2 : A -> Prop) `{!forall x, Decision (P1 x)}
    `{!forall x, Decision (P2 x)} (l : list A) :
  (forall x, x ∈ l -> P1 x <-> P2 x) -> filter P1 l = filter P2 l.
Proof.
  induction l as [|a l IH]; intros Hiff; [done|].
  rewrite !filter_cons.
  rewrite IH by (intros x Hx; apply Hiff; by right).
  destruct (decide (P1 a)) as [H1|H1], (decide (P2 a)) as [H2|H2];
    try done; exfalso; apply (Hiff a (ltac:(by left))) in H1 || apply H1;
    try done; by apply (Hiff a (ltac:(by left))).
Qed.

(** How far the loop gets: up to [count], or through every standby key
    that the list does not hold yet. *)
Lemma topUp_length_exact (sb : list PublicKey) (count : Z)
    (res : list PublicKey) :
  NoDup sb ->
  Z.of_nat (length res) <= count ->
  Z.of_nat (length (topUp sb count res))
  = Z.min count
      (Z.of_nat (length res)
       + Z.of_nat (length (filter (fun k => k ∉ res) sb))).
Proof.
  revert res. induction sb as [|k0 sb IH]; intros res Hnd Hres.
  { simpl. lia. }
  apply NoDup_cons in Hnd as [Hk0 Hnd]. simpl.
  destruct (Z.ltb_spec (Z.of_nat (length res)) count) as [Hlt|Hge]; [|lia].
  unfold Contains. rewrite filter_cons.
  case_bool_decide as Hin.
  - rewrite decide_False by (intros Hn; by apply Hn).
    by apply IH; [|lia].
  - rewrite decide_True by done. rewrite IH; [|done|].
    2:{ rewrite length_app. simpl. lia. }
    rewrite length_app. simpl.
    assert (Hf : filter (fun k => k ∉ res ++ [k0]) sb
                 = filter (fun k => k ∉ res) sb).
    { apply filter_iff_in. intros k Hk. rewrite elem_of_app.
      rewrite list_elem_of_singleton. split.
      - intros Hn Hr. apply Hn. by left.
      - intros Hn [Hr | ->]; [by apply Hn|by apply Hk0]. }
    rewrite Hf. lia.
Qed.

Lemma UniqueFrom_spec (acc ks : list PublicKey) :
  NoDup acc ->
  NoDup (UniqueFrom acc ks)
  /\ forall k, k ∈ UniqueFrom acc ks <-> k ∈ acc \/ k ∈ ks.
Proof.
  revert acc. induction ks as [|k0 ks IH]; intros acc Hnd; simpl.
  { split; [done|]. intros k. split; [by left|].
    intros [H|H]; [done|inversion H]. }
  unfold Contains. case_bool_decide as Hin.
  - destruct (IH acc Hnd) as [H1 H2]. split; [done|].
    intros k. rewrite H2, elem_of_cons. split.
    + intros [H|H]; [by left|right; by right].
    + intros [H|[-> | H]]; [by left|by left|by right].
  - destruct (IH (acc ++ [k0])) as [H1 H2].
    { apply NoDup_app. split; [done|]. split; [|apply NoDup_singleton].
      intros x Hx Hxk. apply list_elem_of_singleton in Hxk. by subst. }
    split; [done|]. intros k.
    rewrite H2, elem_of_app, list_elem_of_singleton, elem_of_cons. tauto.
Qed.

Lemma Unique_spec (ks : list PublicKey) :
  NoDup (Unique ks) /\ forall k, k ∈ Unique ks <-> k ∈ ks.
Proof.
  destruct (UniqueFrom_spec [] ks) as [H1 H2]; [constructor|].
  split; [done|]. intros k. rewrite H2. split; [|by right].
  intros [H|H]; [inversion H|done].
Qed.

Lemma sublist_map {A B} (f : A -> B) (l1 l2 : list A) :
  l1 `sublist_of` l2 -> map f l1 `sublist_of` map f l2.
Proof. induction 1; simpl; by constructor. Qed.

Section ValidatorFacts.
Context `{HostI : Host}.
Context `{SerValidator : Serializable Validator}
        `{SerValidatorsCount : Serializable ValidatorsCount}.

Lemma selectValidators_sorted validators vc sb :
  StronglySorted KeyLe (selectValidators validators vc sb).
Proof. unfold selectValidators, sortKeys. apply StronglySorted_merge_sort; apply _. Qed.

Lemma qualifying_sorted_length validators sb :
  length (filter (fun v => RegisteredAndHasVotes v
                           || Contains (Unique sb) (ValidatorKey v))
                 (sortValidators validators))
  = length (qualifying validators sb).
Proof.
  unfold qualifying, sortValidators.
  apply Permutation_length, filter_Permutation, merge_sort_Permutation.
Qed.

Lemma selectValidators_length validators vc sb :
  Z.of_nat (length (selectValidators validators vc sb))
  <= committeeSize vc sb
  /\ (committeeSize vc sb <= Z.of_nat (length (qualifying validators sb)) ->
      Z.of_nat (length (selectValidators validators vc sb))
      = committeeSize vc sb).
Proof.
  assert (Hcount : 0 <= committeeSize vc sb).
  { unfold committeeSize.
    destruct (Z.ltb_spec (GetWeightedAverage vc) (Z.of_nat (length sb)));
      lia. }
  unfold selectValidators, sortKeys.
  rewrite (Permutation_length (merge_sort_Permutation KeyLe _)).
  rewrite length_map, qualifying_sorted_length.
  destruct (Z.leb_spec (committeeSize vc sb)
              (Z.of_nat (length (qualifying validators sb)))) as [Hle|Hgt].
  - rewrite length_take, length_map. rewrite qualifying_sorted_length. lia.
  - split; [|lia]. apply topUp_length.
    rewrite length_map, qualifying_sorted_length. lia.
Qed.

Lemma selectValidators_NoDup validators vc sb :
  NoDup (map ValidatorKey validators) ->
  NoDup (selectValidators validators vc sb).
Proof.
  intros Hnd. unfold selectValidators, sortKeys.
  rewrite (merge_sort_Permutation KeyLe _).
  assert (Hq : NoDup (map ValidatorKey
                 (filter (fun v => RegisteredAndHasVotes v
                                   || Contains (Unique sb) (ValidatorKey v))
                         (sortValidators validators)))).
  { apply (sublist_NoDup _ (map ValidatorKey (sortValidators validators))).
    - unfold sortValidators.
      by rewrite (merge_sort_Permutation ValidatorLe validators).
    - apply sublist_map, sublist_filter. }
  destruct (_ <=? _).
  - apply (sublist_NoDup _ _ Hq), sublist_take.
  - by apply topUp_NoDup.
Qed.

(** The keys of the stored validators that qualify, in the order of the
    first sort and in the order of the store, are the same up to
    order. *)
Lemma qualifying_keys_Permutation validators sb :
  map ValidatorKey
    (filter (fun v => RegisteredAndHasVotes v
                      || Contains (Unique sb) (ValidatorKey v))
            (sortValidators validators))
  ≡ₚ map ValidatorKey (qualifying validators sb).
Proof.
  unfold qualifying, sortValidators.
  apply Permutation_map, filter_Permutation, merge_sort_Permutation.
Qed.

Lemma selectValidators_length_exact validators vc sb :
  Z.of_nat (length (selectValidators validators vc sb))
  = Z.min (committeeSize vc sb)
      (Z.of_nat (length (qualifying validators sb))
       + Z.of_nat (length (filter (fun k => k ∉ map ValidatorKey
                                                  (qualifying validators sb))
                                  (Unique sb)))).
Proof.
  assert (Hcount : 0 <= committeeSize vc sb).
  { unfold committeeSize.
    destruct (Z.ltb_spec (GetWeightedAverage vc) (Z.of_nat (length sb)));
      lia. }
  unfold selectValidators, sortKeys.
  rewrite (Permutation_length (merge_sort_Permutation KeyLe _)).
  rewrite length_map, qualifying_sorted_length.
  destruct (Z.leb_spec (committeeSize vc sb)
              (Z.of_nat (length (qualifying validators sb)))) as [Hle|Hgt].
  - rewrite length_take, length_map. rewrite qualifying_sorted_length. lia.
  - rewrite topUp_length_exact.
    + rewrite length_map, qualifying_sorted_length.
      f_equal. f_equal. f_equal. f_equal.
      apply list_filter_iff. intros k.
      by rewrite (qualifying_keys_Permutation validators sb).
    + apply Unique_spec.
    + rewrite length_map, qualifying_sorted_length. lia.
Qed.

Lemma selectValidators_members validators vc sb :
  let keys := selectValidators validators vc sb in
  (forall k, k ∈ keys ->
     k ∈ sb \/ exists v, v ∈ qualifying validators sb /\ ValidatorKey v = k)
  /\ (Z.of_nat (length keys) < committeeSize vc sb ->
      (forall k, k ∈ sb -> k ∈ keys)
      /\ (forall v, v ∈ qualifying validators sb -> ValidatorKey v ∈ keys)).
Proof.
  intros keys. subst keys. unfold selectValidators, sortKeys.
  set (q := map ValidatorKey
              (filter (fun v => RegisteredAndHasVotes v
                                || Contains (Unique sb) (ValidatorKey v))
                      (sortValidators validators))).
  assert (Hq : forall k, k ∈ q <->
            exists v, v ∈ qualifying validators sb /\ ValidatorKey v = k).
  { intros k. subst q. rewrite (qualifying_keys_Permutation validators sb).
    rewrite list_elem_of_fmap. split.
    - intros (v & -> & Hv). by exists v.
    - intros (v & Hv & <-). by exists v. }
  rewrite (Permutation_length (merge_sort_Permutation KeyLe _)).
  setoid_rewrite (merge_sort_Permutation KeyLe _).
  destruct (Z.leb_spec (committeeSize vc sb) (Z.of_nat (length q)))
    as [Hle|Hgt].
  - split.
    + intros k Hk. right. apply Hq. by apply (subseteq_take _ _ _ Hk).
    + rewrite length_take.
      assert (0 <= committeeSize vc sb).
      { unfold committeeSize.
        destruct (Z.ltb_spec (GetWeightedAverage vc) (Z.of_nat (length sb)));
          lia. }
      lia.
  - split.
    + intros k Hk. apply topUp_elem in Hk as [Hk|Hk].
      * right. by apply Hq.
      * left. by apply Unique_spec.
    + intros Hlen. split.
      * intros k Hk. apply topUp_all; [done|]. by apply Unique_spec.
      * intros v Hv. apply topUp_incl, Hq. by exists v.
Qed.

(** C7, as the code has it. With a tallies array of non-zero length,
    whenever [getValidators] returns: the keys are sorted ascending by
    public key; each of them is a standby key or the key of a stored
    validator that qualifies; there are as many as the committee size,
    the greater of the weighted average of the tallies and the number
    of standby validators, or as many as there are candidates if these
    are fewer, the candidates being the stored validators that qualify
    and the distinct standby keys that are not the key of one of them;
    so the list is shorter than the committee size only when the
    candidates run out, and then it holds every standby key and the
    key of every stored validator that qualifies; and the keys are
    pairwise distinct when the stored validator records have pairwise
    distinct keys. *)
Theorem getValidators_spec (w w' : World) (keys : list PublicKey) :
  MaxValidatorsVoted <> 0%nat ->
  getValidatorsKeys w = Ok keys w' ->
  exists vc sb,
    GetValidatorsCount (dao w) = ROk vc
    /\ GetStandByValidators (bc w) = ROk sb
    /\ getValidators [] w = Ok (pubsToArray keys) w
    /\ StronglySorted KeyLe keys
    /\ Z.of_nat (length sb) <= committeeSize vc sb
    /\ GetWeightedAverage vc <= committeeSize vc sb
    /\ Z.of_nat (length keys) <= committeeSize vc sb
    /\ (committeeSize vc sb
        <= Z.of_nat (length (qualifying (GetValidators (dao w)) sb)) ->
        Z.of_nat (length keys) = committeeSize vc sb)
    /\ (NoDup (map ValidatorKey (GetValidators (dao w))) -> NoDup keys)
    /\ Z.of_nat (length keys)
       = Z.min (committeeSize vc sb)
           (Z.of_nat (length (qualifying (GetValidators (dao w)) sb))
            + Z.of_nat
                (length
                   (filter (fun k =>
                              k ∉ map ValidatorKey
                                    (qualifying (GetValidators (dao w)) sb))
                           (Unique sb))))
    /\ (Z.of_nat (length keys) < committeeSize vc sb ->
        (forall k, k ∈ sb -> k ∈ keys)
        /\ (forall v, v ∈ qualifying (GetValidators (dao w)) sb ->
              ValidatorKey v ∈ keys))
    /\ (forall k, k ∈ keys ->
          k ∈ sb
          \/ exists v, v ∈ qualifying (GetValidators (dao w)) sb
                       /\ ValidatorKey v = k).
Proof.
  intros Hmax Hrun.
  assert (Hrun' := Hrun). revert Hrun'.
  unfold getValidatorsKeys.
  destruct (GetValidatorsCount (dao w)) as [vc|e]; [|discriminate].
  destruct (Nat.eqb_spec MaxValidatorsVoted 0) as [?|_]; [done|].
  destruct (GetStandByValidators (bc w)) as [sb|e]; [|discriminate].
  intros [= <- <-]. exists vc, sb.
  split; [done|]. split; [done|].
  split. { unfold getValidators, bind, ret. by rewrite Hrun. }
  split; [apply selectValidators_sorted|].
  split. { unfold committeeSize. destruct (Z.ltb_spec (GetWeightedAverage vc)
             (Z.of_nat (length sb))); lia. }
  split. { unfold committeeSize. destruct (Z.ltb_spec (GetWeightedAverage vc)
             (Z.of_nat (length sb))); lia. }
  split; [apply selectValidators_length|].
  split; [apply selectValidators_length|].
  split; [apply selectValidators_NoDup|].
  split; [apply selectValidators_length_exact|].
  split; apply selectValidators_members.
Qed.

End ValidatorFacts.

(** * Worked examples *)

#[local] Existing Instance Fixture.host.
#[local] Existing Instance Fixture.serAccount.
#[local] Existing Instance Fixture.serAsset.
#[local] Existing Instance Fixture.serContract.
#[local] Existing Instance Fixture.serValidator.
#[local] Existing Instance Fixture.serValidatorsCount.

(** C2. Ten GAS are minted to alice on an empty store and five are then
    transferred from alice to bob. The transfer succeeds; afterwards
    alice holds 15 and bob 5, so the balances sum to 20, while the total
    supply is still 10: the sender is credited instead of debited. *)
Theorem transfer_credits_sender :
  outcome_value (mint gasNative Fixture.alice 10 Fixture.w0) = Some tt
  /\ sumBalances GASToken (dao Fixture.wMint) = 10
  /\ gasTotalSupply Fixture.wMint = 10
  /\ outcome_value
       (transfer gasNative Fixture.alice Fixture.bob 5 Fixture.wMint)
     = Some tt
  /\ Fixture.gasOf Fixture.wTransfer Fixture.alice = Some 15
  /\ Fixture.gasOf Fixture.wTransfer Fixture.bob = Some 5
  /\ sumBalances GASToken (dao Fixture.wTransfer) = 20
  /\ gasTotalSupply Fixture.wTransfer = 10.
Proof. repeat split; vm_compute; reflexivity. Qed.





(** The asset and the contract of the example store come back under
    their own identifiers. *)
Lemma Get_state_identity_witness :
  GetAssetState Fixture.d1 Fixture.assetID = ROk Fixture.asset
  /\ ID Fixture.asset = Fixture.assetID
  /\ GetContractState Fixture.d1 (Contract_ScriptHash Fixture.contract)
     = ROk Fixture.contract.
Proof.
  assert (Ha : GetAssetState Fixture.d1 Fixture.assetID = ROk Fixture.asset)
    by (vm_compute; reflexivity).
  split; [exact Ha|]. split.
  - exact (proj1 (Get_state_identity Fixture.d1 Fixture.assetID) _ Ha).
  - vm_compute; reflexivity.
Defined.

(** Registering the stored key changes nothing; registering a new key
    stores its record. *)
Lemma registerValidator_spec_witness :
  registerValidatorInternal Fixture.pub1 Fixture.w1 = Ok tt Fixture.w1
  /\ registerValidatorInternal Fixture.pub2 Fixture.w1
     = Ok tt (set_dao (<[validatorKey Fixture.pub2 := [5; 4; 0; 0]]>
                         (dao Fixture.w1)) Fixture.w1).
Proof.
  split.
  - refine (proj1 (proj1 (registerValidator_spec Fixture.w1 Fixture.pub1)
                     {| ValidatorKey := Fixture.pub1; Registered := true;
                        Votes := 7 |} _)).
    vm_compute; reflexivity.
  - refine (proj1 (proj2 (registerValidator_spec Fixture.w1 Fixture.pub2)
                     _ [5; 4; 0; 0] _)).
    + vm_compute; reflexivity.
    + reflexivity.
Defined.

(** The test suite's call of [sum] on 14 and 28 leaves 42 on the stack. *)
Lemma getNativeInterop_spec_witness :
  getNativeInterop Fixture.testNative (Fixture.sumCall, Fixture.w0)
  = Ok tt ({| estack := [BigIntegerItem 42];
              istack := istack Fixture.sumCall;
              checkedHash := None |}, Fixture.w0).
Proof.
  refine (proj1 (proj2 (getNativeInterop_spec Fixture.testNative
                          Fixture.sumCall Fixture.w0
                          (getScriptHash "Test.Native.Sum") _) _
                   (ByteArrayItem (bytes_of_string "sum"))
                   (ArrayItem [BigIntegerItem 14; BigIntegerItem 28]) []
                   (bytes_of_string "sum")
                   [BigIntegerItem 14; BigIntegerItem 28] _ _ _)
            {| Func := Fixture.sum; Price := 1; RequiredFlags := 0 |}
            (BigIntegerItem 42) Fixture.w0 _ _);
    reflexivity.
Defined.

(** Three keys and the signatures of the first and the third, in order:
    the check pushes true. *)
Lemma ecdsaCheckMultisig_spec_witness :
  exists sigok,
    ecdsaCheckMultisig
      (Fixture.multisigCall [Fixture.sign Fixture.key1; Fixture.sign Fixture.key3])
    = Ok tt {| estack := [BoolItem sigok]; istack := [];
               checkedHash := Some (Sha256 Fixture.msg) |}
    /\ (sigok = true
        <-> exists ks,
              ks `sublist_of` [Fixture.key1; Fixture.key2; Fixture.key3]
              /\ Forall2 (fun k s => Verify k s (Sha256 Fixture.msg) = true) ks
                   [Fixture.sign Fixture.key1; Fixture.sign Fixture.key3]).
Proof.
  refine (proj2 (ecdsaCheckMultisig_spec
                   (Fixture.multisigCall
                      [Fixture.sign Fixture.key1; Fixture.sign Fixture.key3])
                   {| estack :=
                        [ArrayItem (map ByteArrayItem
                           [Fixture.key1; Fixture.key2; Fixture.key3]);
                         ArrayItem (map ByteArrayItem
                           [Fixture.sign Fixture.key1;
                            Fixture.sign Fixture.key3])];
                      istack := []; checkedHash := None |}
                   {| estack :=
                        [ArrayItem (map ByteArrayItem
                           [Fixture.sign Fixture.key1;
                            Fixture.sign Fixture.key3])];
                      istack := []; checkedHash := None |}
                   {| estack := []; istack := []; checkedHash := None |}
                   (ByteArrayItem Fixture.msg) Fixture.msg
                   [Fixture.key1; Fixture.key2; Fixture.key3]
                   [Fixture.sign Fixture.key1; Fixture.sign Fixture.key3]
                   _ _ _ _) _);
    try reflexivity.
  simpl. lia.
Defined.

(** Two example stores under three standby keys. With one registered
    validator with votes, itself a standby key, and no tallies, the
    committee size is three and the two other standby keys fill the
    list up to it. With no validator and tallies that average to
    four, the committee size is four and the three standby keys are
    all the candidates there are. *)
Lemma getValidators_spec_witness :
  let keys := [{| X := 2; Y := 5 |}; {| X := 3; Y := 1 |};
               {| X := 7; Y := 2 |}] in
  (exists vc sb,
     GetValidatorsCount (dao Fixture.w1) = ROk vc
     /\ GetStandByValidators (bc Fixture.w1) = ROk sb
     /\ getValidators [] Fixture.w1 = Ok (pubsToArray keys) Fixture.w1
     /\ StronglySorted KeyLe keys
     /\ Z.of_nat (length sb) <= committeeSize vc sb
     /\ GetWeightedAverage vc <= committeeSize vc sb
     /\ 3 <= committeeSize vc sb
     /\ (committeeSize vc sb
         <= Z.of_nat (length (qualifying (GetValidators (dao Fixture.w1)) sb)) ->
         3 = committeeSize vc sb)
     /\ (NoDup (map ValidatorKey (GetValidators (dao Fixture.w1))) -> NoDup keys)
     /\ 3 = Z.min (committeeSize vc sb)
               (Z.of_nat (length (qualifying (GetValidators (dao Fixture.w1)) sb))
                + Z.of_nat
                    (length
                       (filter (fun k =>
                                  k ∉ map ValidatorKey
                                        (qualifying
                                           (GetValidators (dao Fixture.w1)) sb))
                               (Unique sb))))
     /\ (3 < committeeSize vc sb ->
         (forall k, k ∈ sb -> k ∈ keys)
         /\ (forall v, v ∈ qualifying (GetValidators (dao Fixture.w1)) sb ->
               ValidatorKey v ∈ keys))
     /\ (forall k, k ∈ keys ->
           k ∈ sb
           \/ exists v, v ∈ qualifying (GetValidators (dao Fixture.w1)) sb
                        /\ ValidatorKey v = k))
  /\ (exists vc sb,
     GetValidatorsCount (dao Fixture.wTally) = ROk vc
     /\ GetStandByValidators (bc Fixture.wTally) = ROk sb
     /\ getValidators [] Fixture.wTally = Ok (pubsToArray keys) Fixture.wTally
     /\ StronglySorted KeyLe keys
     /\ Z.of_nat (length sb) <= committeeSize vc sb
     /\ GetWeightedAverage vc <= committeeSize vc sb
     /\ 3 <= committeeSize vc sb
     /\ (committeeSize vc sb
         <= Z.of_nat (length (qualifying (GetValidators (dao Fixture.wTally)) sb)) ->
         3 = committeeSize vc sb)
     /\ (NoDup (map ValidatorKey (GetValidators (dao Fixture.wTally))) -> NoDup keys)
     /\ 3 = Z.min (committeeSize vc sb)
               (Z.of_nat (length (qualifying (GetValidators (dao Fixture.wTally)) sb))
                + Z.of_nat
                    (length
                       (filter (fun k =>
                                  k ∉ map ValidatorKey
                                        (qualifying
                                           (GetValidators (dao Fixture.wTally)) sb))
                               (Unique sb))))
     /\ (3 < committeeSize vc sb ->
         (forall k, k ∈ sb -> k ∈ keys)
         /\ (forall v, v ∈ qualifying (GetValidators (dao Fixture.wTally)) sb ->
               ValidatorKey v ∈ keys))
     /\ (forall k, k ∈ keys ->
           k ∈ sb
           \/ exists v, v ∈ qualifying (GetValidators (dao Fixture.wTally)) sb
                        /\ ValidatorKey v = k)).
Proof.
  split.
  - refine (getValidators_spec Fixture.w1 Fixture.w1 _ _ _).
    + vm_compute; discriminate.
    + vm_compute; reflexivity.
  - refine (getValidators_spec Fixture.wTally Fixture.wTally _ _ _).
    + vm_compute; discriminate.
    + vm_compute; reflexivity.
Defined.

(** C7. With a standby list that names one key twice and no stored
    validator, [getValidators] returns one key for a committee size of
    two; with three standby keys and tallies that average to four, it
    returns three keys for a committee size of four. *)
Lemma getValidators_counterexample :
  outcome_value (getValidatorsKeys Fixture.wDup) = Some [Fixture.pub1]
  /\ committeeSize (replicate MaxValidatorsVoted 0) [Fixture.pub1; Fixture.pub1]
     = 2
  /\ outcome_value (getValidatorsKeys Fixture.wTally)
     = Some [{| X := 2; Y := 5 |}; {| X := 3; Y := 1 |}; {| X := 7; Y := 2 |}]
  /\ GetValidatorsCount (dao Fixture.wTally) = ROk [0; 0; 0; 5]
  /\ committeeSize [0; 0; 0; 5]
       [{| X := 3; Y := 1 |}; {| X := 2; Y := 5 |}; {| X := 7; Y := 2 |}]
     = 4.
Proof. repeat split; vm_compute; reflexivity. Qed.

(** The multisig scenarios of the node's test suite: two signatures in
    key order pass, the same two in reverse order do not, and four
    signatures for three keys are an error. *)
Example ecdsaCheckMultisig_scenarios :
  outcome_value
    (bind ecdsaCheckMultisig (fun _ => gets estack)
       (Fixture.multisigCall [Fixture.sign Fixture.key1; Fixture.sign Fixture.key3]))
  = Some [BoolItem true]
  /\ outcome_value
       (bind ecdsaCheckMultisig (fun _ => gets estack)
          (Fixture.multisigCall [Fixture.sign Fixture.key3; Fixture.sign Fixture.key1]))
     = Some [BoolItem false]
  /\ ecdsaCheckMultisig
       (Fixture.multisigCall [Fixture.sign Fixture.key1; Fixture.sign Fixture.key2;
                              Fixture.sign Fixture.key3; Fixture.sign Fixture.key3])
     = Err (ErrMsg "more signatures than there are keys")
           {| estack := []; istack := []; checkedHash := None |}.
Proof. repeat split; vm_compute; reflexivity. Qed.
